(** * qod.py: quote-of-the-day command line script

    A shallow embedding of [src/qod/qod.py].  The script is a straight
    line of module-level statements:

    - [res = requests.get(url)]
    - [data = res.json()]
    - a branch on [res.status_code == 200], each arm ending in one [print].

    Python values are an inductive type, dictionaries are finite maps,
    and the two effects of the script (the outbound request and the write
    to standard output) are threaded through an explicit state; an
    uncaught exception is an error result.  A text is a sequence of
    characters; which texts the encoding of standard output can encode
    is left to the environment. *)

From Stdlib Require Import ZArith Ascii String List.
From stdpp Require Import base option list strings gmap.

Set Warnings "-register-all".
Local Open Scope string_scope.
Local Open Scope Z_scope.

(** ** Python values as decoded from JSON *)

(** What [res.json()] can return: [None], [bool], [int], [float], [str],
    [list] and [dict] with [str] keys.  A [float] is carried as its
    binary64 bit pattern; the script never computes with one. *)
Inductive pyval : Type :=
  | PNone
  | PBool (b : bool)
  | PInt (n : Z)
  | PFloat (bits : Z)
  | PStr (s : string)
  | PList (l : list pyval)
  | PDict (d : gmap string pyval).

(** A subscript: the script uses string keys and the integer literal [0]. *)
Inductive key : Type :=
  | KStr (s : string)
  | KInt (i : Z).

(** ** Exceptions *)

(** The ways the HTTP GET can fail inside [requests]. *)
Inductive net_failure : Type :=
  | ConnectionRefused
  | NameResolutionFailed
  | TimedOut
  | TooManyRedirects.

Inductive exn : Type :=
  | KeyError (k : key)
  | IndexError
  | TypeError
  | JSONDecodeError
  | UnicodeEncodeError
  | RequestException (f : net_failure).

(** [KeyError] and [IndexError] are the subclasses of [LookupError]. *)
Definition is_lookup_error (e : exn) : bool :=
  match e with
  | KeyError _ | IndexError => true
  | _ => false
  end.

Definition is_network_error (e : exn) : bool :=
  match e with
  | RequestException _ => true
  | _ => false
  end.

Inductive result (A : Type) : Type :=
  | Ok (a : A)
  | Raise (e : exn).
Arguments Ok {A} a.
Arguments Raise {A} e.

(** ** Subscription [obj[k]] *)

(** [l[i]] on a sequence of length [len l]: a negative index counts from
    the end, anything out of range raises [IndexError]. *)
Definition seq_index {A : Type} (l : list A) (i : Z) : result A :=
  let n := Z.of_nat (length l) in
  let j := if i <? 0 then i + n else i in
  if (j <? 0) || (n <=? j) then Raise IndexError
  else match l !! Z.to_nat j with
       | Some x => Ok x
       | None => Raise IndexError
       end.

Definition chars (s : string) : list ascii := list_ascii_of_string s.

Definition getitem (obj : pyval) (k : key) : result pyval :=
  match obj with
  | PDict d =>
      match k with
      | KStr s => match d !! s with
                  | Some v => Ok v
                  | None => Raise (KeyError k)
                  end
      | KInt _ => Raise (KeyError k)
      end
  | PList l =>
      match k with
      | KInt i => seq_index l i
      | KStr _ => Raise TypeError
      end
  | PStr s =>
      match k with
      | KInt i => match seq_index (chars s) i with
                  | Ok c => Ok (PStr (String c EmptyString))
                  | Raise e => Raise e
                  end
      | KStr _ => Raise TypeError
      end
  | PNone | PBool _ | PInt _ | PFloat _ => Raise TypeError
  end.

(** [x + y] where one operand is known to be a [str]: only [str + str]
    is defined, every other operand type raises [TypeError]. *)
Definition add_str (x y : pyval) : result pyval :=
  match x, y with
  | PStr a, PStr b => Ok (PStr (a +:+ b))
  | _, _ => Raise TypeError
  end.

(** [data[k1][k2]...]: subscripts applied left to right, stopping at the
    first one that raises. *)
Fixpoint getitems (obj : pyval) (ks : list key) : result pyval :=
  match ks with
  | [] => Ok obj
  | k :: ks' =>
      match getitem obj k with
      | Ok v => getitems v ks'
      | Raise e => Raise e
      end
  end.

(** ** The process: environment, observable state, effects *)

(** The [requests.Response] object, as far as a client can read it.
    [text] is the body as [res.json()] parses it: the content already
    decoded with the character set that [requests] takes from the
    response. *)
Record Response : Type := {
  status_code : Z;
  headers : list (string * string);
  text : string
}.

(** Everything outside the process that a run could consult.
    [network u] is what one call [requests.get(u)] comes back with, and
    [redirects u] the URLs of the further GET requests that the library
    sends inside that call, one for each redirection the servers answer
    with.  [stdout_encodable] tells which texts the encoding of
    [sys.stdout] can encode; the interpreter fixes that encoding when it
    starts, from [PYTHONIOENCODING] and the locale. *)
Record Env : Type := {
  argv : list string;
  environ : gmap string string;
  files : gmap string string;
  network : string -> net_failure + Response;
  redirects : string -> list string;
  stdout_encodable : string -> bool
}.

(** What a run leaves behind: the URLs handed to [requests.get], the
    URLs of the GET requests that left the process, both in order, and
    the characters that the text stream [sys.stdout] took. *)
Record World : Type := {
  get_calls : list string;
  requests_log : list string;
  stdout : string
}.

Definition initial_world : World :=
  {| get_calls := []; requests_log := []; stdout := "" |}.

(** Computations of the script: read the environment, update the world,
    return a value or raise. *)
Definition M (A : Type) : Type := Env -> World -> result A * World.

#[global] Instance M_ret : MRet M := fun A a _ w => (Ok a, w).
#[global] Instance M_bind : MBind M := fun A B f m env w =>
  match m env w with
  | (Ok a, w') => f a env w'
  | (Raise e, w') => (Raise e, w')
  end.

Definition lift {A : Type} (r : result A) : M A := fun _ w => (r, w).

Definition newline : string := String "010"%char EmptyString.

(** [requests.get(url)]: the GET to [u] goes out, then one GET for each
    redirection the library follows, and the last answer or the failure
    comes back. *)
Definition requests_get (u : string) : M Response := fun env w =>
  let w' := {| get_calls := get_calls w ++ [u];
               requests_log := requests_log w ++ u :: redirects env u;
               stdout := stdout w |} in
  match network env u with
  | inr res => (Ok res, w')
  | inl f => (Raise (RequestException f), w')
  end.

(** [print(s)]: the text is encoded for [sys.stdout]; when the encoding
    has no bytes for it the write raises [UnicodeEncodeError] and
    nothing is written, otherwise the text and a line feed are appended
    to standard output. *)
Definition print (s : string) : M unit := fun env w =>
  if stdout_encodable env s
  then (Ok tt, {| get_calls := get_calls w;
                  requests_log := requests_log w;
                  stdout := stdout w +:+ s +:+ newline |})
  else (Raise UnicodeEncodeError, w).

(** The exit status of the interpreter: 0 when the script runs to its
    end, 1 when an exception reaches the top level. *)
Definition exit_status {A : Type} (r : result A) : Z :=
  match r with
  | Ok _ => 0
  | Raise _ => 1
  end.

(** ** Shapes of the decoded body *)

(** The success schema: an object whose [contents] is an object whose
    [quotes] is an array whose first element is an object with string
    fields [quote] and [author].  Returns the two strings. *)
Definition success_fields (data : pyval) : option (string * string) :=
  match data with
  | PDict d =>
      match d !! "contents" with
      | Some (PDict c) =>
          match c !! "quotes" with
          | Some (PList (PDict q :: _)) =>
              match q !! "quote", q !! "author" with
              | Some (PStr quote), Some (PStr author) => Some (quote, author)
              | _, _ => None
              end
          | _ => None
          end
      | _ => None
      end
  | _ => None
  end.

(** The failure schema: an object whose [error] is an object with a
    field [message].  Returns the value of that field. *)
Definition error_field (data : pyval) : option pyval :=
  match data with
  | PDict d =>
      match d !! "error" with
      | Some (PDict e) => e !! "message"
      | _ => None
      end
  | _ => None
  end.

Definition error_message (data : pyval) : option string :=
  match error_field data with
  | Some (PStr m) => Some m
  | _ => None
  end.

(** The first field of the success schema that an object on the way
    lacks: [contents] in the body, [quotes] in [contents], [quote] or
    [author] in the first quote. *)
Definition missing_success_field (data : pyval) : option string :=
  match data with
  | PDict d =>
      match d !! "contents" with
      | None => Some "contents"
      | Some (PDict c) =>
          match c !! "quotes" with
          | None => Some "quotes"
          | Some (PList (PDict q :: _)) =>
              match q !! "quote", q !! "author" with
              | None, _ => Some "quote"
              | Some _, None => Some "author"
              | Some _, Some _ => None
              end
          | Some _ => None
          end
      | Some _ => None
      end
  | _ => None
  end.

(** The same for the failure schema: [error] in the body, [message] in
    the error object. *)
Definition missing_error_field (data : pyval) : option string :=
  match data with
  | PDict d =>
      match d !! "error" with
      | None => Some "error"
      | Some (PDict e) =>
          match e !! "message" with
          | None => Some "message"
          | Some _ => None
          end
      | Some _ => None
      end
  | _ => None
  end.

(** The number of line feeds in a text, that is the number of
    newline-terminated lines it holds. *)
Fixpoint line_feeds (s : string) : nat :=
  match s with
  | EmptyString => O
  | String c r => ((if Ascii.eqb c "010" then 1 else 0) + line_feeds r)%nat
  end.

(** The text of the line on a handled path: the quote, the separator and
    the author under status 200 with a body of the success schema, the
    message under any other status with a body of the failure schema. *)
Definition handled_payload (status : Z) (data : pyval) : option string :=
  if status =? 200
  then match success_fields data with
       | Some (quote, author) => Some (quote +:+ " - " +:+ author)
       | None => None
       end
  else error_message data.

(** The JSON type tests used to state what the subscripts and the
    concatenation accept. *)
Definition is_object (v : pyval) : bool :=
  match v with
  | PDict _ => true
  | _ => false
  end.

Definition is_str (v : pyval) : bool :=
  match v with
  | PStr _ => true
  | _ => false
  end.

(** The field each branch reads first from the body. *)
Definition branch_field (status : Z) : string :=
  if status =? 200 then "contents" else "error".

(** The colour code each branch asks for. *)
Definition branch_colour (status : Z) : string :=
  if status =? 200 then "32" else "31".

Definition newline_terminated (s : string) : Prop :=
  exists body, s = body +:+ newline.

(** ** The script *)

Section Script.

(** The JSON decoder behind [res.json()]: the decoded value, or [None]
    when the body is not valid JSON and the call raises. *)
Variable loads : string -> option pyval.

(** What the styling library makes of an argument that is not a [str]
    (its [str()] text, or an exception). *)
Variable render_other : pyval -> result string.

(** [res.json()] *)
Definition json (res : Response) : result pyval :=
  match loads (text res) with
  | Some v => Ok v
  | None => Raise JSONDecodeError
  end.

(** Modelled from the spec: the [pyfancy] class comes from the imported
    pyfancy package, which is not under src/.  Styled text is the text
    augmented with ANSI colour escape codes: a method named after a
    colour appends the code of that foreground colour (32 green, 31 red)
    and then the text to the buffer [out]; [get] returns the buffer
    followed by the reset code 0. *)
Record pyfancy : Type := { out : string }.

Definition pyfancy_init : pyfancy := {| out := "" |}.

Definition esc (code : string) : string :=
  String "027"%char ("[" +:+ code +:+ "m").

Definition text_of (v : pyval) : result string :=
  match v with
  | PStr s => Ok s
  | _ => render_other v
  end.

Definition styled (code : string) (self : pyfancy) (addition : pyval)
  : result pyfancy :=
  match text_of addition with
  | Ok s => Ok {| out := out self +:+ esc code +:+ s |}
  | Raise e => Raise e
  end.

Definition green : pyfancy -> pyval -> result pyfancy := styled "32".
Definition red : pyfancy -> pyval -> result pyfancy := styled "31".
Definition get (self : pyfancy) : string := out self +:+ esc "0".

Definition url : string := "https://quotes.rest/qod".

(** The module body of qod.py, statement by statement. *)
Definition main : M unit :=
  res ← requests_get url;
  data ← lift (json res);
  if status_code res =? 200 then
    quote ← lift (getitems data [KStr "contents"; KStr "quotes"; KInt 0; KStr "quote"]);
    author ← lift (getitems data [KStr "contents"; KStr "quotes"; KInt 0; KStr "author"]);
    joined ← lift (add_str quote (PStr " - "));
    line ← lift (add_str joined author);
    fancy ← lift (green pyfancy_init line);
    print (get fancy)
  else
    message ← lift (getitems data [KStr "error"; KStr "message"]);
    fancy ← lift (red pyfancy_init message);
    print (get fancy).

(** The three subscript chains of the script. *)
Definition quote_path : list key := [KStr "contents"; KStr "quotes"; KInt 0; KStr "quote"].
Definition author_path : list key := [KStr "contents"; KStr "quotes"; KInt 0; KStr "author"].
Definition message_path : list key := [KStr "error"; KStr "message"].

(** The value handed to [print], or the exception raised on the way:
    the statements of [main] that follow [res.json()], without the
    effects.  [run_eq] below proves that [main] computes exactly this. *)
Definition styled_line (status : Z) (data : pyval) : result string :=
  if status =? 200 then
    match getitems data quote_path with
    | Raise e => Raise e
    | Ok quote =>
        match getitems data author_path with
        | Raise e => Raise e
        | Ok author =>
            match add_str quote (PStr " - ") with
            | Raise e => Raise e
            | Ok joined =>
                match add_str joined author with
                | Raise e => Raise e
                | Ok line =>
                    match green pyfancy_init line with
                    | Raise e => Raise e
                    | Ok fancy => Ok (get fancy)
                    end
                end
            end
        end
    end
  else
    match getitems data message_path with
    | Raise e => Raise e
    | Ok message =>
        match red pyfancy_init message with
        | Raise e => Raise e
        | Ok fancy => Ok (get fancy)
        end
    end.

(** The world after a run that issued its request and printed [s]. *)
Definition after (env : Env) (s : string) : World :=
  {| get_calls := [url];
     requests_log := url :: redirects env url;
     stdout := s |}.

(** One invocation: the script run from a fresh process. *)
Definition run (env : Env) : result unit * World := main env initial_world.

Definition outcome (env : Env) : result unit := fst (run env).
Definition printed (env : Env) : string := stdout (snd (run env)).
Definition requested (env : Env) : list string := requests_log (snd (run env)).

End Script.

(** ** A JSON text decoder

    A decoder for the fragment of JSON without fractional numbers and
    without [\u] escapes: objects, arrays, strings with the two-character
    escapes, integers and the three literals.  A repeated key keeps its
    last value, as a Python [dict] does.  Texts outside the fragment are
    rejected.  It instantiates [loads] on concrete response bodies. *)
Module JsonText.

Definition quote_mark : ascii := "034"%char.
Definition backslash : ascii := "092"%char.

Definition code (c : ascii) : Z := Z.of_N (N_of_ascii c).

Definition is_ws (c : ascii) : bool :=
  (code c =? 32) || (code c =? 9) || (code c =? 10) || (code c =? 13).

Definition is_digit (c : ascii) : bool := (48 <=? code c) && (code c <=? 57).

Definition is_control (c : ascii) : bool := code c <? 32.

Fixpoint skip_ws (s : list ascii) : list ascii :=
  match s with
  | c :: r => if is_ws c then skip_ws r else s
  | [] => []
  end.

Fixpoint strip_prefix (p s : list ascii) : option (list ascii) :=
  match p, s with
  | [], _ => Some s
  | a :: p', b :: s' => if Ascii.eqb a b then strip_prefix p' s' else None
  | _ :: _, [] => None
  end.

Fixpoint digits (s : list ascii) (acc : Z) : Z * list ascii :=
  match s with
  | c :: r => if is_digit c then digits r (10 * acc + (code c - 48)) else (acc, s)
  | [] => (acc, [])
  end.

Definition is_fraction_start (s : list ascii) : bool :=
  match s with
  | c :: _ => (code c =? 46) || (code c =? 101) || (code c =? 69)
  | [] => false
  end.

Definition unsigned_number (s : list ascii) : option (Z * list ascii) :=
  match s with
  | c :: r =>
      if is_digit c then
        let '(n, rest) := if code c =? 48 then (0, r) else digits s 0 in
        if is_fraction_start rest then None else Some (n, rest)
      else None
  | [] => None
  end.

Definition number (s : list ascii) : option (pyval * list ascii) :=
  match s with
  | c :: r =>
      if code c =? 45
      then '(n, rest) ← unsigned_number r; Some (PInt (- n), rest)
      else '(n, rest) ← unsigned_number s; Some (PInt n, rest)
  | [] => None
  end.

Definition unescape (c : ascii) : option ascii :=
  if Ascii.eqb c quote_mark then Some quote_mark
  else if Ascii.eqb c backslash then Some backslash
  else if Ascii.eqb c "/" then Some "/"%char
  else if Ascii.eqb c "b" then Some "008"%char
  else if Ascii.eqb c "f" then Some "012"%char
  else if Ascii.eqb c "n" then Some "010"%char
  else if Ascii.eqb c "r" then Some "013"%char
  else if Ascii.eqb c "t" then Some "009"%char
  else None.

(** The characters after an opening quotation mark, up to the closing one. *)
Fixpoint string_body (s acc : list ascii) : option (string * list ascii) :=
  match s with
  | [] => None
  | c :: r =>
      if Ascii.eqb c quote_mark then Some (string_of_list_ascii (rev acc), r)
      else if Ascii.eqb c backslash then
        match r with
        | e :: r' =>
            match unescape e with
            | Some u => string_body r' (u :: acc)
            | None => None
            end
        | [] => None
        end
      else if is_control c then None
      else string_body r (c :: acc)
  end.

Definition literal (s : list ascii) : option (pyval * list ascii) :=
  match strip_prefix (chars "true") s with
  | Some r => Some (PBool true, r)
  | None =>
      match strip_prefix (chars "false") s with
      | Some r => Some (PBool false, r)
      | None =>
          match strip_prefix (chars "null") s with
          | Some r => Some (PNone, r)
          | None => number s
          end
      end
  end.

Fixpoint value (fuel : nat) (s : list ascii) : option (pyval * list ascii) :=
  match fuel with
  | O => None
  | S n =>
      match skip_ws s with
      | [] => None
      | c :: r =>
          if Ascii.eqb c "{" then
            match skip_ws r with
            | c' :: r' => if Ascii.eqb c' "}" then Some (PDict ∅, r')
                          else members n (c' :: r') ∅
            | [] => None
            end
          else if Ascii.eqb c "[" then
            match skip_ws r with
            | c' :: r' => if Ascii.eqb c' "]" then Some (PList [], r')
                          else elements n (c' :: r') []
            | [] => None
            end
          else if Ascii.eqb c quote_mark then
            '(str, r') ← string_body r []; Some (PStr str, r')
          else literal (c :: r)
      end
  end
with elements (fuel : nat) (s : list ascii) (acc : list pyval)
  : option (pyval * list ascii) :=
  match fuel with
  | O => None
  | S n =>
      '(v, r) ← value n s;
      match skip_ws r with
      | c :: r' =>
          if Ascii.eqb c "," then elements n r' (v :: acc)
          else if Ascii.eqb c "]" then Some (PList (rev (v :: acc)), r')
          else None
      | [] => None
      end
  end
with members (fuel : nat) (s : list ascii) (acc : gmap string pyval)
  : option (pyval * list ascii) :=
  match fuel with
  | O => None
  | S n =>
      match skip_ws s with
      | c :: r =>
          if Ascii.eqb c quote_mark then
            '(k, r1) ← string_body r [];
            match skip_ws r1 with
            | c1 :: r2 =>
                if Ascii.eqb c1 ":" then
                  '(v, r3) ← value n r2;
                  match skip_ws r3 with
                  | c3 :: r4 =>
                      if Ascii.eqb c3 "," then members n r4 (<[k:=v]> acc)
                      else if Ascii.eqb c3 "}" then Some (PDict (<[k:=v]> acc), r4)
                      else None
                  | [] => None
                  end
                else None
            | [] => None
            end
          else None
      | [] => None
      end
  end.

(** The whole text must be one value, white space around it allowed. *)
Definition loads (s : string) : option pyval :=
  let cs := chars s in
  '(v, r) ← value (S (length cs)) cs;
  match skip_ws r with
  | [] => Some v
  | _ :: _ => None
  end.

(** A JSON text is written here with [q] for each quotation mark. *)
Definition q : string := String quote_mark EmptyString.

End JsonText.

(** ** Concrete runs *)

Module Samples.
Import JsonText.

Definition answer (status : Z) (body : string) : Response :=
  {| status_code := status; headers := []; text := body |}.

(** An environment in which every GET is answered with the given status
    and body. *)
Definition respond (status : Z) (body : string) : Env :=
  {| argv := []; environ := ∅; files := ∅;
     network := fun _ => inr (answer status body);
     redirects := fun _ => [];
     stdout_encodable := fun _ => true |}.

(** An environment in which every GET fails. *)
Definition unreachable (f : net_failure) : Env :=
  {| argv := []; environ := ∅; files := ∅; network := fun _ => inl f;
     redirects := fun _ => [];
     stdout_encodable := fun _ => true |}.



(** The ASCII encoding has bytes for the characters below 128 only. *)
Definition is_ascii (s : string) : bool :=
  forallb (fun c => code c <? 128) (chars s).

(** The encoding of standard output as the interpreter takes it from
    the environment: ASCII when [PYTHONIOENCODING] says so, otherwise
    one that encodes every character of a text. *)
Definition encoding_of (vars : gmap string string) : string -> bool :=
  match vars !! "PYTHONIOENCODING" with
  | Some name => if String.eqb name "ascii" then is_ascii else fun _ => true
  | None => fun _ => true
  end.

(** An interpreter started with the given environment variables. *)
Definition interpreter (vars : gmap string string) (status : Z) (body : string)
  : Env :=
  {| argv := []; environ := vars; files := ∅;
     network := fun _ => inr (answer status body);
     redirects := fun _ => [];
     stdout_encodable := encoding_of vars |}.

Definition ascii_vars : gmap string string := {[ "PYTHONIOENCODING" := "ascii" ]}.

(** A styling library that takes [str] arguments only. *)
Definition str_only (v : pyval) : result string := Raise TypeError.

Definition field (name : string) (v : string) : string :=
  q +:+ name +:+ q +:+ ":" +:+ v.

Definition quoted (s : string) : string := q +:+ s +:+ q.

(** The two bodies of the specification's examples. *)
Definition success_body : string :=
  "{" +:+ field "contents" ("{" +:+ field "quotes" ("[{" +:+
     field "quote" (quoted "Be yourself") +:+ "," +:+
     field "author" (quoted "Oscar Wilde") +:+ "}]") +:+ "}") +:+ "}".

Definition error_body : string :=
  "{" +:+ field "error" ("{" +:+ field "message" (quoted "Service unavailable") +:+ "}") +:+ "}".

(** Bodies off the schemas. *)
Definition no_contents_body : string := "{" +:+ field "status" "{}" +:+ "}".

Definition no_error_body : string := "{" +:+ field "detail" (quoted "Not Found") +:+ "}".

Definition empty_quotes_body : string :=
  "{" +:+ field "contents" ("{" +:+ field "quotes" "[]" +:+ "}") +:+ "}".

Definition not_json_body : string := "<html>Bad Gateway</html>".

(** An error body whose message holds the escape for a line feed. *)
Definition two_line_error_body : string :=
  "{" +:+ field "error" ("{" +:+ field "message"
     (quoted ("Too Many Requests" +:+ String backslash "n" +:+ "Retry later")) +:+ "}") +:+ "}".

(** What the bodies decode to. *)
Definition success_data : pyval :=
  PDict {[ "contents" := PDict {[ "quotes" :=
    PList [PDict {[ "quote" := PStr "Be yourself"; "author" := PStr "Oscar Wilde" ]}] ]} ]}.

Definition error_data : pyval :=
  PDict {[ "error" := PDict {[ "message" := PStr "Service unavailable" ]} ]}.

Definition no_contents_data : pyval := PDict {[ "status" := PDict ∅ ]}.

Definition no_error_data : pyval := PDict {[ "detail" := PStr "Not Found" ]}.

Definition two_line_message : string :=
  "Too Many Requests" +:+ newline +:+ "Retry later".

Definition two_line_error_data : pyval :=
  PDict {[ "error" := PDict {[ "message" := PStr two_line_message ]} ]}.

(** Bodies of valid JSON with a value of another type where a schema
    has an object, an array or a string. *)
Definition array_body : string := "[]".

Definition null_quote_body : string :=
  "{" +:+ field "contents" ("{" +:+ field "quotes" ("[{" +:+
     field "quote" "null" +:+ "," +:+
     field "author" (quoted "Oscar Wilde") +:+ "}]") +:+ "}") +:+ "}".

Definition quotes_object_body : string :=
  "{" +:+ field "contents" ("{" +:+ field "quotes" ("{" +:+ field "0" ("{" +:+
     field "quote" (quoted "Be yourself") +:+ "," +:+
     field "author" (quoted "Oscar Wilde") +:+ "}") +:+ "}") +:+ "}") +:+ "}".

Definition quote_strings_body : string :=
  "{" +:+ field "contents" ("{" +:+ field "quotes"
     ("[" +:+ quoted "Be yourself" +:+ "]") +:+ "}") +:+ "}".

Definition flat_error_body : string :=
  "{" +:+ field "error" (quoted "Not Found") +:+ "}".

(** A text with a character outside ASCII, and bodies that carry it. *)
Definition cafe : string := "Caf" +:+ String "233"%char EmptyString.

Definition cafe_success_body : string :=
  "{" +:+ field "contents" ("{" +:+ field "quotes" ("[{" +:+
     field "quote" (quoted cafe) +:+ "," +:+
     field "author" (quoted "Oscar Wilde") +:+ "}]") +:+ "}") +:+ "}".

Definition cafe_success_data : pyval :=
  PDict {[ "contents" := PDict {[ "quotes" :=
    PList [PDict {[ "quote" := PStr cafe; "author" := PStr "Oscar Wilde" ]}] ]} ]}.

Definition cafe_error_body : string :=
  "{" +:+ field "error" ("{" +:+ field "message" (quoted cafe) +:+ "}") +:+ "}".

Definition cafe_error_data : pyval :=
  PDict {[ "error" := PDict {[ "message" := PStr cafe ]} ]}.

(** A success body whose quote holds the escape for a line feed. *)
Definition two_line_quote : string :=
  "Be yourself;" +:+ newline +:+ "everyone else is already taken.".

Definition two_line_success_body : string :=
  "{" +:+ field "contents" ("{" +:+ field "quotes" ("[{" +:+
     field "quote" (quoted ("Be yourself;" +:+ String backslash "n" +:+
                            "everyone else is already taken.")) +:+ "," +:+
     field "author" (quoted "Oscar Wilde") +:+ "}]") +:+ "}") +:+ "}".

Definition two_line_success_data : pyval :=
  PDict {[ "contents" := PDict {[ "quotes" :=
    PList [PDict {[ "quote" := PStr two_line_quote;
                    "author" := PStr "Oscar Wilde" ]}] ]} ]}.

Definition first_quote : gmap string pyval :=
  {[ "quote" := PStr "Be yourself"; "author" := PStr "Oscar Wilde" ]}.

Definition null_quote : gmap string pyval :=
  {[ "quote" := PNone; "author" := PStr "Oscar Wilde" ]}.

Definition run_sample (env : Env) : result unit * World :=
  run loads str_only env.

End Samples.


(** * Properties *)

(** ** Strings *)

Lemma append_nil_l (a : string) : "" +:+ a = a.
Proof. reflexivity. Qed.

Lemma append_cons (x : ascii) (a b : string) :
  String x a +:+ b = String x (a +:+ b).
Proof. reflexivity. Qed.

Lemma append_assoc (a b c : string) : (a +:+ b) +:+ c = a +:+ b +:+ c.
Proof.
  induction a as [|x a IH]; [reflexivity|].
  rewrite !append_cons. now rewrite IH.
Qed.

Lemma line_feeds_app (a b : string) :
  line_feeds (a +:+ b) = (line_feeds a + line_feeds b)%nat.
Proof.
  induction a as [|x a IH]; [reflexivity|].
  rewrite append_cons. cbn [line_feeds]. rewrite IH. lia.
Qed.

Lemma line_feeds_newline : line_feeds newline = 1%nat.
Proof. reflexivity. Qed.

(** ** Subscripts against the schemas *)

Lemma getitem_str_ok (obj v : pyval) (name : string) :
  getitem obj (KStr name) = Ok v <-> exists d, obj = PDict d /\ d !! name = Some v.
Proof.
  split.
  - destruct obj; simpl; try discriminate.
    destruct (d !! name) as [x|] eqn:E; [|discriminate].
    intros [= ->]. eauto.
  - intros (d & -> & E). simpl. now rewrite E.
Qed.

Lemma getitem_str_raise (obj : pyval) (name : string) (e : exn) :
  getitem obj (KStr name) = Raise e ->
  (exists d, obj = PDict d /\ d !! name = None /\ e = KeyError (KStr name))
  \/ ((forall d, obj <> PDict d) /\ e = TypeError).
Proof.
  destruct obj; simpl; try (intros [= <-]; right; split; [discriminate | reflexivity]).
  destruct (d !! name) eqn:E; [discriminate|].
  intros [= <-]. left. eauto.
Qed.

Lemma seq_index_0 {A : Type} (l : list A) :
  seq_index l 0 = match l with x :: _ => Ok x | [] => Raise IndexError end.
Proof.
  unfold seq_index. destruct l as [|x l]; [reflexivity|].
  cbn [length]. rewrite Nat2Z.inj_succ.
  replace (0 <? 0) with false by reflexivity. cbn [orb].
  destruct (Z.leb_spec (Z.succ (Z.of_nat (length l))) 0); [lia|].
  reflexivity.
Qed.


(** Evaluate a chain of subscripts against the lookups in the context. *)
Ltac lookup_step :=
  cbn [getitems getitem];
  first [ rewrite seq_index_0
        | match goal with
          | E : ?d !! ?k = _ |- context [?d !! ?k] => rewrite E
          end ].

Ltac lookups := unfold quote_path, author_path, message_path;
  repeat lookup_step; cbn [getitems getitem].

Lemma success_fields_paths (data : pyval) (quote author : string) :
  success_fields data = Some (quote, author) ->
  getitems data quote_path = Ok (PStr quote)
  /\ getitems data author_path = Ok (PStr author).
Proof.
  unfold success_fields. intros H.
  repeat case_match; try discriminate. simplify_eq.
  split; lookups; reflexivity.
Qed.

Lemma error_field_path (data v : pyval) :
  getitems data message_path = Ok v <-> error_field data = Some v.
Proof.
  unfold error_field, message_path. split.
  - cbn [getitems]. destruct (getitem data (KStr "error")) as [x|] eqn:E1; [|discriminate].
    destruct (getitem x (KStr "message")) as [y|] eqn:E2; [|discriminate].
    intros [= ->].
    apply getitem_str_ok in E1 as (d & -> & E1).
    apply getitem_str_ok in E2 as (e & -> & E2).
    now rewrite E1.
  - intros H. repeat case_match; try discriminate. lookups. reflexivity.
Qed.

Lemma missing_success_field_paths (data : pyval) (name : string) :
  missing_success_field data = Some name ->
  getitems data quote_path = Raise (KeyError (KStr name))
  \/ (exists v, getitems data quote_path = Ok v
               /\ getitems data author_path = Raise (KeyError (KStr name))).
Proof.
  unfold missing_success_field. intros H.
  repeat case_match; try discriminate; simplify_eq;
    first [ left; lookups; reflexivity
          | right; eexists; split; lookups; reflexivity ].
Qed.

Lemma missing_error_field_path (data : pyval) (name : string) :
  missing_error_field data = Some name ->
  getitems data message_path = Raise (KeyError (KStr name)).
Proof.
  unfold missing_error_field. intros H.
  repeat case_match; try discriminate; simplify_eq; lookups; reflexivity.
Qed.

(** The executable shapes, spelled out as lookups. *)
Lemma success_fields_spec (data : pyval) (quote author : string) :
  success_fields data = Some (quote, author) <->
  exists (d c q : gmap string pyval) (rest : list pyval),
    data = PDict d
    /\ d !! "contents" = Some (PDict c)
    /\ c !! "quotes" = Some (PList (PDict q :: rest))
    /\ q !! "quote" = Some (PStr quote)
    /\ q !! "author" = Some (PStr author).
Proof.
  unfold success_fields. split.
  - intros H. repeat case_match; try discriminate. simplify_eq.
    eexists _, _, _, _. repeat split; eassumption.
  - intros (d & c & q & rest & -> & Hc & Hq & H1 & H2).
    now rewrite Hc, Hq, H1, H2.
Qed.

Lemma error_message_spec (data : pyval) (message : string) :
  error_message data = Some message <->
  exists d e : gmap string pyval,
    data = PDict d
    /\ d !! "error" = Some (PDict e)
    /\ e !! "message" = Some (PStr message).
Proof.
  unfold error_message, error_field. split.
  - intros H. repeat case_match; try discriminate. simplify_eq.
    eexists _, _. repeat split; eassumption.
  - intros (d & e & -> & He & Hm). now rewrite He, Hm.
Qed.

Lemma missing_contents (d : gmap string pyval) :
  d !! "contents" = None -> missing_success_field (PDict d) = Some "contents".
Proof. intros H. unfold missing_success_field. now rewrite H. Qed.

Lemma missing_error (d : gmap string pyval) :
  d !! "error" = None -> missing_error_field (PDict d) = Some "error".
Proof. intros H. unfold missing_error_field. now rewrite H. Qed.

Lemma missing_message (d e : gmap string pyval) :
  d !! "error" = Some (PDict e) -> e !! "message" = None ->
  missing_error_field (PDict d) = Some "message".
Proof. intros H1 H2. unfold missing_error_field. now rewrite H1, H2. Qed.

(** ** The script *)

Section Properties.

Variable loads : string -> option pyval.
Variable render_other : pyval -> result string.

(** A run is the request, the decoding of the body, the pure
    computation of the line and, last, one [print], which fails when
    standard output cannot encode the line. *)
Lemma run_eq (env : Env) :
  run loads render_other env =
  match network env url with
  | inl f => (Raise (RequestException f), after env "")
  | inr res =>
      match loads (text res) with
      | None => (Raise JSONDecodeError, after env "")
      | Some data =>
          match styled_line render_other (status_code res) data with
          | Ok s =>
              if stdout_encodable env s
              then (Ok tt, after env (s +:+ newline))
              else (Raise UnicodeEncodeError, after env "")
          | Raise e => (Raise e, after env "")
          end
      end
  end.
Proof.
  unfold run, main, mbind, M_bind, requests_get, lift, print, json, styled_line.
  cbn [get_calls requests_log stdout initial_world app].
  destruct (network env url) as [f|res]; [reflexivity|].
  destruct (loads (text res)) as [data|]; [|reflexivity].
  destruct (status_code res =? 200).
  - fold quote_path author_path.
    destruct (getitems data quote_path) as [quote|]; [|reflexivity].
    destruct (getitems data author_path) as [author|]; [|reflexivity].
    destruct (add_str quote (PStr " - ")) as [joined|]; [|reflexivity].
    destruct (add_str joined author) as [line|]; [|reflexivity].
    destruct (green render_other pyfancy_init line) as [fancy|]; [|reflexivity].
    destruct (stdout_encodable env (get fancy)); reflexivity.
  - fold message_path.
    destruct (getitems data message_path) as [message|]; [|reflexivity].
    destruct (red render_other pyfancy_init message) as [fancy|]; [|reflexivity].
    destruct (stdout_encodable env (get fancy)); reflexivity.
Qed.

(** The escape sequences of the styling, byte by byte. *)
Lemma esc_green : esc "32" = String "027"%char "[32m".
Proof. reflexivity. Qed.

Lemma esc_red : esc "31" = String "027"%char "[31m".
Proof. reflexivity. Qed.

Lemma esc_reset : esc "0" = String "027"%char "[0m".
Proof. reflexivity. Qed.

Lemma styled_line_success (status : Z) (data : pyval) (quote author : string) :
  status = 200 ->
  success_fields data = Some (quote, author) ->
  styled_line render_other status data
  = Ok (esc "32" +:+ quote +:+ " - " +:+ author +:+ esc "0").
Proof.
  intros -> H. apply success_fields_paths in H as [Hq Ha].
  unfold styled_line. rewrite Z.eqb_refl, Hq, Ha.
  unfold green, styled, get. cbn [add_str text_of pyfancy_init out].
  now rewrite append_nil_l, !append_assoc.
Qed.

Lemma styled_line_error (status : Z) (data message : pyval) :
  status <> 200 ->
  error_field data = Some message ->
  styled_line render_other status data
  = match text_of render_other message with
    | Ok s => Ok (esc "31" +:+ s +:+ esc "0")
    | Raise e => Raise e
    end.
Proof.
  intros Hs H. apply error_field_path in H.
  unfold styled_line. apply Z.eqb_neq in Hs. rewrite Hs, H.
  unfold red, styled. destruct (text_of render_other message); [|reflexivity].
  unfold get. cbn [pyfancy_init out]. now rewrite append_nil_l, !append_assoc.
Qed.

Lemma styled_line_missing_success (status : Z) (data : pyval) (name : string) :
  status = 200 ->
  missing_success_field data = Some name ->
  styled_line render_other status data = Raise (KeyError (KStr name)).
Proof.
  intros -> H. unfold styled_line. rewrite Z.eqb_refl.
  apply missing_success_field_paths in H as [Hq | (v & Hq & Ha)].
  - now rewrite Hq.
  - now rewrite Hq, Ha.
Qed.

Lemma styled_line_missing_error (status : Z) (data : pyval) (name : string) :
  status <> 200 ->
  missing_error_field data = Some name ->
  styled_line render_other status data = Raise (KeyError (KStr name)).
Proof.
  intros Hs H. unfold styled_line. apply Z.eqb_neq in Hs. rewrite Hs.
  now rewrite (missing_error_field_path _ _ H).
Qed.


Ltac run_with Hnet :=
  unfold outcome, printed, requested; rewrite run_eq, Hnet.

(** C1 (amended): a response with status 200 whose body follows the
    success schema, when standard output can encode the styled line,
    makes the script print exactly ESC[32m, the quote, [" - "], the
    author, ESC[0m and one line feed, and finish with exit status 0.
    That is one line when neither quote nor author holds a line feed,
    and one more line for each line feed they hold. *)
Theorem success_prints_green_quote
  (env : Env) (res : Response) (data : pyval) (quote author : string) :
  network env url = inr res ->
  status_code res = 200 ->
  loads (text res) = Some data ->
  success_fields data = Some (quote, author) ->
  stdout_encodable env
    (String "027"%char "[32m" +:+ quote +:+ " - " +:+ author
     +:+ String "027"%char "[0m") = true ->
  printed loads render_other env
  = String "027"%char "[32m" +:+ quote +:+ " - " +:+ author
    +:+ String "027"%char "[0m" +:+ String "010"%char ""
  /\ line_feeds (printed loads render_other env)
     = S (line_feeds quote + line_feeds author)
  /\ outcome loads render_other env = Ok tt
  /\ exit_status (outcome loads render_other env) = 0.
Proof.
  intros Hnet Hs Hd Hf He. run_with Hnet. rewrite Hd.
  rewrite (styled_line_success _ _ _ _ Hs Hf), esc_green, esc_reset, He.
  cbn [fst snd after stdout exit_status].
  split; [now rewrite !append_assoc|]. split; [|split; reflexivity].
  rewrite !line_feeds_app. unfold newline. simpl. lia.
Qed.

(** C2 (amended): a response with any other status whose body follows
    the failure schema with a string message, when standard output can
    encode the styled line, makes the script print exactly ESC[31m, the
    message, ESC[0m and one line feed, and finish with exit status 0. *)
Theorem error_prints_red_message
  (env : Env) (res : Response) (data : pyval) (message : string) :
  network env url = inr res ->
  status_code res <> 200 ->
  loads (text res) = Some data ->
  error_message data = Some message ->
  stdout_encodable env
    (String "027"%char "[31m" +:+ message +:+ String "027"%char "[0m") = true ->
  printed loads render_other env
  = String "027"%char "[31m" +:+ message +:+ String "027"%char "[0m"
    +:+ String "010"%char ""
  /\ outcome loads render_other env = Ok tt
  /\ exit_status (outcome loads render_other env) = 0.
Proof.
  intros Hnet Hs Hd Hm He. run_with Hnet. rewrite Hd.
  unfold error_message in Hm.
  destruct (error_field data) as [[| | | |m| |]|] eqn:Hf; try discriminate.
  injection Hm as ->.
  rewrite (styled_line_error _ _ _ Hs Hf). cbn [text_of].
  rewrite esc_red, esc_reset, He. cbn [fst snd after stdout exit_status].
  now rewrite !append_assoc.
Qed.

(** C3: under status 200, a body in which an object on the way to the
    quote lacks [contents], [quotes], [quote] or [author] makes the
    script die of the [KeyError] for that field, a lookup error, with
    nothing on standard output and a non-zero exit status. *)
Theorem missing_success_field_crashes
  (env : Env) (res : Response) (data : pyval) (name : string) :
  network env url = inr res ->
  status_code res = 200 ->
  loads (text res) = Some data ->
  missing_success_field data = Some name ->
  outcome loads render_other env = Raise (KeyError (KStr name))
  /\ is_lookup_error (KeyError (KStr name)) = true
  /\ printed loads render_other env = ""
  /\ exit_status (outcome loads render_other env) <> 0.
Proof.
  intros Hnet Hs Hd Hm. run_with Hnet. rewrite Hd.
  rewrite (styled_line_missing_success _ _ _ Hs Hm).
  cbn [fst snd after stdout exit_status is_lookup_error]. repeat split. lia.
Qed.

(** C4: the body is decoded before the status is looked at: when it is
    not valid JSON the script dies of the decoding error whatever the
    status code, with nothing on standard output. *)
Theorem invalid_json_crashes (env : Env) (res : Response) :
  network env url = inr res ->
  loads (text res) = None ->
  outcome loads render_other env = Raise JSONDecodeError
  /\ printed loads render_other env = ""
  /\ exit_status (outcome loads render_other env) <> 0.
Proof.
  intros Hnet Hd. run_with Hnet. rewrite Hd.
  cbn [fst snd after stdout exit_status]. repeat split. lia.
Qed.

(** C5: under a status other than 200, a body object without [error],
    or whose error object is without [message], makes the script die of
    the [KeyError] for that field instead of printing a red line. *)
Theorem missing_error_field_crashes
  (env : Env) (res : Response) (data : pyval) (name : string) :
  network env url = inr res ->
  status_code res <> 200 ->
  loads (text res) = Some data ->
  missing_error_field data = Some name ->
  outcome loads render_other env = Raise (KeyError (KStr name))
  /\ is_lookup_error (KeyError (KStr name)) = true
  /\ printed loads render_other env = ""
  /\ exit_status (outcome loads render_other env) <> 0.
Proof.
  intros Hnet Hs Hd Hm. run_with Hnet. rewrite Hd.
  rewrite (styled_line_missing_error _ _ _ Hs Hm).
  cbn [fst snd after stdout exit_status is_lookup_error]. repeat split. lia.
Qed.

(** C6: when the GET itself fails, the script dies of the network
    exception with nothing on standard output. *)
Theorem network_failure_crashes (env : Env) (f : net_failure) :
  network env url = inl f ->
  outcome loads render_other env = Raise (RequestException f)
  /\ is_network_error (RequestException f) = true
  /\ printed loads render_other env = ""
  /\ exit_status (outcome loads render_other env) <> 0.
Proof.
  intros Hnet. run_with Hnet.
  cbn [fst snd after stdout exit_status is_network_error]. repeat split. lia.
Qed.


(** Without a redirection exactly one GET leaves the process. *)
Lemma single_request_without_redirect (env : Env) :
  redirects env "https://quotes.rest/qod" = [] ->
  requested loads render_other env = ["https://quotes.rest/qod"].
Proof.
  intros Hr. unfold requested. rewrite run_eq.
  assert (Ha : forall s, requests_log (after env s) = ["https://quotes.rest/qod"]).
  { intros s. cbn [after requests_log]. unfold url. now rewrite Hr. }
  destruct (network env url) as [f|res]; [apply Ha|].
  destruct (loads (text res)) as [data|]; [|apply Ha].
  destruct (styled_line render_other (status_code res) data) as [s|]; [|apply Ha].
  destruct (stdout_encodable env s); apply Ha.
Qed.

(** C8 (amended): on each of the two handled paths, when standard
    output can encode the styled line, it receives the output of exactly
    one [print]: the colour code of the branch, the text, the reset
    code and one line feed.  That is one line more than there are line
    feeds in the printed quote, author or message, so exactly one line
    when that text is free of line feeds. *)
Theorem handled_paths_print_once
  (env : Env) (res : Response) (data : pyval) (payload : string) :
  network env url = inr res ->
  loads (text res) = Some data ->
  handled_payload (status_code res) data = Some payload ->
  stdout_encodable env
    ((if status_code res =? 200
      then String "027"%char "[32m" else String "027"%char "[31m")
     +:+ payload +:+ String "027"%char "[0m") = true ->
  outcome loads render_other env = Ok tt
  /\ printed loads render_other env
     = (if status_code res =? 200
        then String "027"%char "[32m" else String "027"%char "[31m")
       +:+ payload +:+ String "027"%char "[0m" +:+ String "010"%char ""
  /\ line_feeds (printed loads render_other env) = S (line_feeds payload).
Proof.
  intros Hnet Hd Hp. run_with Hnet. rewrite Hd.
  unfold handled_payload in Hp.
  destruct (Z.eqb_spec (status_code res) 200) as [Hs|Hs]; intros He.
  - destruct (success_fields data) as [[quote author]|] eqn:Hf; [|discriminate].
    injection Hp as <-.
    rewrite (styled_line_success _ _ _ _ Hs Hf), esc_green, esc_reset.
    rewrite !append_assoc in He. rewrite He.
    cbn [fst snd after stdout].
    split; [reflexivity|]. split; [now rewrite !append_assoc|].
    rewrite !line_feeds_app. unfold newline. simpl. lia.
  - unfold error_message in Hp.
    destruct (error_field data) as [[| | | |m| |]|] eqn:Hf; try discriminate.
    injection Hp as ->.
    rewrite (styled_line_error _ _ _ Hs Hf). cbn [text_of].
    rewrite esc_red, esc_reset, He. cbn [fst snd after stdout].
    split; [reflexivity|]. split; [now rewrite !append_assoc|].
    rewrite !line_feeds_app. unfold newline. simpl. lia.
Qed.

Lemma styled_line_empty_quotes (status : Z) (d c : gmap string pyval) :
  status = 200 ->
  d !! "contents" = Some (PDict c) ->
  c !! "quotes" = Some (PList []) ->
  styled_line render_other status (PDict d) = Raise IndexError.
Proof.
  intros -> Hc Hq. unfold styled_line. rewrite Z.eqb_refl.
  lookups. reflexivity.
Qed.

(** C9: under status 200, a body whose [contents.quotes] is the empty
    array makes the script die of the [IndexError] raised by [[0]], with
    nothing on standard output. *)
Theorem empty_quotes_crashes
  (env : Env) (res : Response) (d c : gmap string pyval) :
  network env url = inr res ->
  status_code res = 200 ->
  loads (text res) = Some (PDict d) ->
  d !! "contents" = Some (PDict c) ->
  c !! "quotes" = Some (PList []) ->
  outcome loads render_other env = Raise IndexError
  /\ is_lookup_error IndexError = true
  /\ printed loads render_other env = ""
  /\ exit_status (outcome loads render_other env) <> 0.
Proof.
  intros Hnet Hs Hd Hc Hq. run_with Hnet. rewrite Hd.
  rewrite (styled_line_empty_quotes _ _ _ Hs Hc Hq).
  cbn [fst snd after stdout exit_status is_lookup_error]. repeat split. lia.
Qed.



(** A body that is no object at all fails the first subscript, under
    every status. *)
Lemma styled_line_non_object (status : Z) (data : pyval) :
  (forall d, data <> PDict d) ->
  styled_line render_other status data = Raise TypeError.
Proof.
  intros Hd. unfold styled_line, quote_path, message_path.
  destruct data; try (destruct (status =? 200); reflexivity).
  now destruct (Hd d).
Qed.

(** Whatever happens, a run that dies has printed nothing, and a run
    that ends normally has printed one newline-terminated text. *)
Lemma crash_prints_nothing (env : Env) (e : exn) :
  outcome loads render_other env = Raise e ->
  printed loads render_other env = "".
Proof.
  unfold outcome, printed. rewrite run_eq.
  destruct (network env url) as [f|res]; [reflexivity|].
  destruct (loads (text res)) as [data|]; [|reflexivity].
  destruct (styled_line render_other (status_code res) data) as [s|];
    [|reflexivity].
  destruct (stdout_encodable env s); [discriminate | reflexivity].
Qed.

Lemma normal_end_prints_once (env : Env) :
  outcome loads render_other env = Ok tt ->
  newline_terminated (printed loads render_other env).
Proof.
  unfold outcome, printed. rewrite run_eq.
  destruct (network env url) as [f|res]; [discriminate|].
  destruct (loads (text res)) as [data|]; [|discriminate].
  destruct (styled_line render_other (status_code res) data) as [s|];
    [|discriminate].
  destruct (stdout_encodable env s); [|discriminate].
  intros _. now exists s.
Qed.

End Properties.

(** * The properties on concrete runs *)

Import JsonText Samples.

(** The decoder on the sample bodies. *)
Lemma loads_samples :
  loads success_body = Some success_data
  /\ loads error_body = Some error_data
  /\ loads no_contents_body = Some no_contents_data
  /\ loads no_error_body = Some no_error_data
  /\ loads two_line_error_body = Some two_line_error_data
  /\ loads two_line_success_body = Some two_line_success_data
  /\ loads cafe_success_body = Some cafe_success_data
  /\ loads cafe_error_body = Some cafe_error_data
  /\ loads not_json_body = None.
Proof. repeat split; vm_compute; reflexivity. Qed.

Lemma success_prints_green_quote_witness :
  printed loads str_only (respond 200 success_body)
  = String "027"%char "[32m" +:+ "Be yourself" +:+ " - " +:+ "Oscar Wilde"
    +:+ String "027"%char "[0m" +:+ String "010"%char ""
  /\ line_feeds (printed loads str_only (respond 200 success_body))
     = S (line_feeds "Be yourself" + line_feeds "Oscar Wilde")
  /\ outcome loads str_only (respond 200 success_body) = Ok tt
  /\ exit_status (outcome loads str_only (respond 200 success_body)) = 0.
Proof.
  apply (success_prints_green_quote loads str_only (respond 200 success_body)
           (answer 200 success_body) success_data "Be yourself" "Oscar Wilde").
  - reflexivity.
  - reflexivity.
  - vm_compute; reflexivity.
  - vm_compute; reflexivity.
  - reflexivity.
Defined.

(** C1, as stated, fails twice.  A status 200 body of the success schema
    whose quote holds a line feed puts two lines on standard output; and
    one whose quote has a character that the encoding of standard output
    (here ASCII, chosen by [PYTHONIOENCODING]) cannot encode makes
    [print] raise, with nothing printed and exit status 1. *)
Lemma success_line_counterexample :
  (network (respond 200 two_line_success_body) url
   = inr (answer 200 two_line_success_body)
   /\ status_code (answer 200 two_line_success_body) = 200
   /\ loads (text (answer 200 two_line_success_body)) = Some two_line_success_data
   /\ success_fields two_line_success_data = Some (two_line_quote, "Oscar Wilde")
   /\ line_feeds (printed loads str_only (respond 200 two_line_success_body)) = 2%nat)
  /\ (network (interpreter ascii_vars 200 cafe_success_body) url
      = inr (answer 200 cafe_success_body)
      /\ status_code (answer 200 cafe_success_body) = 200
      /\ loads (text (answer 200 cafe_success_body)) = Some cafe_success_data
      /\ success_fields cafe_success_data = Some (cafe, "Oscar Wilde")
      /\ printed loads str_only (interpreter ascii_vars 200 cafe_success_body) = ""
      /\ outcome loads str_only (interpreter ascii_vars 200 cafe_success_body)
         = Raise UnicodeEncodeError
      /\ exit_status (outcome loads str_only
                        (interpreter ascii_vars 200 cafe_success_body)) = 1).
Proof. repeat split; vm_compute; reflexivity. Qed.

Lemma error_prints_red_message_witness :
  printed loads str_only (respond 500 error_body)
  = String "027"%char "[31m" +:+ "Service unavailable" +:+ String "027"%char "[0m"
    +:+ String "010"%char ""
  /\ outcome loads str_only (respond 500 error_body) = Ok tt
  /\ exit_status (outcome loads str_only (respond 500 error_body)) = 0.
Proof.
  apply (error_prints_red_message loads str_only (respond 500 error_body)
           (answer 500 error_body) error_data "Service unavailable").
  - reflexivity.
  - simpl; lia.
  - vm_compute; reflexivity.
  - vm_compute; reflexivity.
  - reflexivity.
Defined.

(** C2, as stated, fails: under status 500 a body of the failure schema
    whose string message has a character that the encoding of standard
    output (here ASCII) cannot encode makes [print] raise, with nothing
    printed and exit status 1. *)
Lemma error_line_counterexample :
  network (interpreter ascii_vars 500 cafe_error_body) url
  = inr (answer 500 cafe_error_body)
  /\ status_code (answer 500 cafe_error_body) <> 200
  /\ loads (text (answer 500 cafe_error_body)) = Some cafe_error_data
  /\ error_message cafe_error_data = Some cafe
  /\ printed loads str_only (interpreter ascii_vars 500 cafe_error_body) = ""
  /\ outcome loads str_only (interpreter ascii_vars 500 cafe_error_body)
     = Raise UnicodeEncodeError
  /\ exit_status (outcome loads str_only
                    (interpreter ascii_vars 500 cafe_error_body)) = 1.
Proof.
  split; [reflexivity|].
  split; [simpl; lia|].
  repeat split; vm_compute; reflexivity.
Qed.

Lemma missing_success_field_crashes_witness :
  outcome loads str_only (respond 200 no_contents_body)
  = Raise (KeyError (KStr "contents"))
  /\ is_lookup_error (KeyError (KStr "contents")) = true
  /\ printed loads str_only (respond 200 no_contents_body) = ""
  /\ exit_status (outcome loads str_only (respond 200 no_contents_body)) <> 0.
Proof.
  apply (missing_success_field_crashes loads str_only (respond 200 no_contents_body)
           (answer 200 no_contents_body) no_contents_data "contents").
  - reflexivity.
  - reflexivity.
  - vm_compute; reflexivity.
  - vm_compute; reflexivity.
Defined.

Lemma invalid_json_crashes_witness :
  (outcome loads str_only (respond 200 not_json_body) = Raise JSONDecodeError
   /\ printed loads str_only (respond 200 not_json_body) = ""
   /\ exit_status (outcome loads str_only (respond 200 not_json_body)) <> 0)
  /\ (outcome loads str_only (respond 502 not_json_body) = Raise JSONDecodeError
      /\ printed loads str_only (respond 502 not_json_body) = ""
      /\ exit_status (outcome loads str_only (respond 502 not_json_body)) <> 0).
Proof.
  split.
  - apply (invalid_json_crashes loads str_only (respond 200 not_json_body)
             (answer 200 not_json_body)).
    + reflexivity.
    + vm_compute; reflexivity.
  - apply (invalid_json_crashes loads str_only (respond 502 not_json_body)
             (answer 502 not_json_body)).
    + reflexivity.
    + vm_compute; reflexivity.
Defined.

Lemma missing_error_field_crashes_witness :
  outcome loads str_only (respond 404 no_error_body)
  = Raise (KeyError (KStr "error"))
  /\ is_lookup_error (KeyError (KStr "error")) = true
  /\ printed loads str_only (respond 404 no_error_body) = ""
  /\ exit_status (outcome loads str_only (respond 404 no_error_body)) <> 0.
Proof.
  apply (missing_error_field_crashes loads str_only (respond 404 no_error_body)
           (answer 404 no_error_body) no_error_data "error").
  - reflexivity.
  - simpl; lia.
  - vm_compute; reflexivity.
  - vm_compute; reflexivity.
Defined.

Lemma network_failure_crashes_witness :
  outcome loads str_only (unreachable ConnectionRefused)
  = Raise (RequestException ConnectionRefused)
  /\ is_network_error (RequestException ConnectionRefused) = true
  /\ printed loads str_only (unreachable ConnectionRefused) = ""
  /\ exit_status (outcome loads str_only (unreachable ConnectionRefused)) <> 0.
Proof.
  apply (network_failure_crashes loads str_only (unreachable ConnectionRefused)
           ConnectionRefused).
  reflexivity.
Defined.


(** C8, as stated, fails both ways.  Status 429 with a body of the
    failure schema whose message holds a line feed is a handled path,
    and two newline-terminated lines reach standard output; status 500
    with a message that the encoding of standard output (here ASCII)
    cannot encode is a handled path too, and no line reaches it. *)
Lemma one_line_counterexample :
  (network (respond 429 two_line_error_body) url = inr (answer 429 two_line_error_body)
   /\ status_code (answer 429 two_line_error_body) <> 200
   /\ loads (text (answer 429 two_line_error_body)) = Some two_line_error_data
   /\ error_message two_line_error_data = Some two_line_message
   /\ outcome loads str_only (respond 429 two_line_error_body) = Ok tt
   /\ line_feeds (printed loads str_only (respond 429 two_line_error_body)) = 2%nat
   /\ line_feeds (printed loads str_only (respond 429 two_line_error_body)) <> 1%nat)
  /\ (network (interpreter ascii_vars 500 cafe_error_body) url
      = inr (answer 500 cafe_error_body)
      /\ loads (text (answer 500 cafe_error_body)) = Some cafe_error_data
      /\ handled_payload (status_code (answer 500 cafe_error_body)) cafe_error_data
         = Some cafe
      /\ line_feeds (printed loads str_only
                       (interpreter ascii_vars 500 cafe_error_body)) = 0%nat).
Proof.
  split.
  - split; [reflexivity|].
    split; [simpl; lia|].
    split; [vm_compute; reflexivity|].
    split; [vm_compute; reflexivity|].
    split; [vm_compute; reflexivity|].
    split; [vm_compute; reflexivity|].
    vm_compute. discriminate.
  - repeat split; vm_compute; reflexivity.
Qed.

Lemma handled_paths_print_once_witness :
  (outcome loads str_only (respond 200 success_body) = Ok tt
   /\ printed loads str_only (respond 200 success_body)
      = String "027"%char "[32m" +:+ "Be yourself - Oscar Wilde"
        +:+ String "027"%char "[0m" +:+ String "010"%char ""
   /\ line_feeds (printed loads str_only (respond 200 success_body))
      = S (line_feeds "Be yourself - Oscar Wilde"))
  /\ (outcome loads str_only (respond 429 two_line_error_body) = Ok tt
      /\ printed loads str_only (respond 429 two_line_error_body)
         = String "027"%char "[31m" +:+ two_line_message
           +:+ String "027"%char "[0m" +:+ String "010"%char ""
      /\ line_feeds (printed loads str_only (respond 429 two_line_error_body))
         = S (line_feeds two_line_message)).
Proof.
  split.
  - apply (handled_paths_print_once loads str_only (respond 200 success_body)
             (answer 200 success_body) success_data "Be yourself - Oscar Wilde").
    + reflexivity.
    + vm_compute; reflexivity.
    + vm_compute; reflexivity.
    + reflexivity.
  - apply (handled_paths_print_once loads str_only (respond 429 two_line_error_body)
             (answer 429 two_line_error_body) two_line_error_data two_line_message).
    + reflexivity.
    + vm_compute; reflexivity.
    + vm_compute; reflexivity.
    + reflexivity.
Defined.

Lemma empty_quotes_crashes_witness :
  outcome loads str_only (respond 200 empty_quotes_body) = Raise IndexError
  /\ is_lookup_error IndexError = true
  /\ printed loads str_only (respond 200 empty_quotes_body) = ""
  /\ exit_status (outcome loads str_only (respond 200 empty_quotes_body)) <> 0.
Proof.
  apply (empty_quotes_crashes loads str_only (respond 200 empty_quotes_body)
           (answer 200 empty_quotes_body)
           {[ "contents" := PDict {[ "quotes" := PList [] ]} ]}
           {[ "quotes" := PList [] ]}).
  - reflexivity.
  - reflexivity.
  - vm_compute; reflexivity.
  - vm_compute; reflexivity.
  - vm_compute; reflexivity.
Defined.



(** * Edges of the two branches *)

Lemma append_newline_nonempty (s : string) : s +:+ newline <> "".
Proof. destruct s; discriminate. Qed.

(** Replace a run by its characterisation [run_eq]. *)
Ltac unfold_run Hnet :=
  unfold outcome, printed, requested; rewrite run_eq, Hnet.

Section Edges.

Variable loads : string -> option pyval.
Variable render_other : pyval -> result string.

Lemma styled_line_not_object (status : Z) (data : pyval) :
  is_object data = false ->
  styled_line render_other status data = Raise TypeError.
Proof.
  intros H. apply styled_line_non_object. intros d ->. discriminate.
Qed.

Lemma styled_get (code : string) (v : pyval) (fancy : pyfancy) :
  styled render_other code pyfancy_init v = Ok fancy ->
  exists s, get fancy = esc code +:+ s +:+ esc "0".
Proof.
  unfold styled, get. destruct (text_of render_other v) as [s|]; [|discriminate].
  intros [= <-]. exists s. cbn [pyfancy_init out].
  now rewrite append_nil_l, !append_assoc.
Qed.

Lemma styled_line_coloured (status : Z) (data : pyval) (line : string) :
  styled_line render_other status data = Ok line ->
  exists s, line = esc (branch_colour status) +:+ s +:+ esc "0".
Proof.
  unfold styled_line, branch_colour, green, red.
  destruct (status =? 200).
  - destruct (getitems data quote_path) as [quote|]; [|discriminate].
    destruct (getitems data author_path) as [author|]; [|discriminate].
    destruct (add_str quote (PStr " - ")) as [joined|]; [|discriminate].
    destruct (add_str joined author) as [text|]; [|discriminate].
    destruct (styled render_other "32" pyfancy_init text) as [fancy|] eqn:E;
      [|discriminate].
    intros [= <-]. exact (styled_get _ _ _ E).
  - destruct (getitems data message_path) as [message|]; [|discriminate].
    destruct (styled render_other "31" pyfancy_init message) as [fancy|] eqn:E;
      [|discriminate].
    intros [= <-]. exact (styled_get _ _ _ E).
Qed.

(** Any status: a body that decodes to something other than an object
    (an array, a string, a number, a literal) fails the first subscript
    of either branch with [TypeError]; nothing is printed. *)
Theorem non_object_body_crashes (env : Env) (res : Response) (data : pyval) :
  network env url = inr res ->
  loads (text res) = Some data ->
  is_object data = false ->
  outcome loads render_other env = Raise TypeError
  /\ printed loads render_other env = ""
  /\ exit_status (outcome loads render_other env) <> 0.
Proof.
  intros Hnet Hd Ho. unfold_run Hnet. rewrite Hd.
  rewrite (styled_line_not_object _ _ Ho).
  cbn [fst snd after stdout exit_status]. repeat split. lia.
Qed.

(** Status 200: when the first quote has both fields but [quote] or
    [author] is not a string, the concatenation with [" - "] raises
    [TypeError]; nothing is printed. *)
Theorem non_string_quote_crashes
  (env : Env) (res : Response) (d c q : gmap string pyval)
  (rest : list pyval) (vq va : pyval) :
  network env url = inr res ->
  status_code res = 200 ->
  loads (text res) = Some (PDict d) ->
  d !! "contents" = Some (PDict c) ->
  c !! "quotes" = Some (PList (PDict q :: rest)) ->
  q !! "quote" = Some vq ->
  q !! "author" = Some va ->
  is_str vq && is_str va = false ->
  outcome loads render_other env = Raise TypeError
  /\ printed loads render_other env = ""
  /\ exit_status (outcome loads render_other env) <> 0.
Proof.
  intros Hnet Hs Hd Hc Hq H1 H2 Hstr. unfold_run Hnet. rewrite Hd, Hs.
  assert (E : styled_line render_other 200 (PDict d) = Raise TypeError).
  { unfold styled_line. rewrite Z.eqb_refl. lookups.
    destruct vq; try reflexivity. cbn [add_str].
    destruct va; try reflexivity. discriminate. }
  rewrite E. cbn [fst snd after stdout exit_status]. repeat split. lia.
Qed.

(** Status 200: when [contents.quotes] is an object rather than an
    array, the subscript [[0]] looks up the integer key 0, which no
    decoded object has (its keys are strings, also the key ["0"]), and
    raises [KeyError]; nothing is printed. *)
Theorem quotes_object_crashes
  (env : Env) (res : Response) (d c o : gmap string pyval) :
  network env url = inr res ->
  status_code res = 200 ->
  loads (text res) = Some (PDict d) ->
  d !! "contents" = Some (PDict c) ->
  c !! "quotes" = Some (PDict o) ->
  outcome loads render_other env = Raise (KeyError (KInt 0))
  /\ is_lookup_error (KeyError (KInt 0)) = true
  /\ printed loads render_other env = ""
  /\ exit_status (outcome loads render_other env) <> 0.
Proof.
  intros Hnet Hs Hd Hc Hq. unfold_run Hnet. rewrite Hd, Hs.
  assert (E : styled_line render_other 200 (PDict d) = Raise (KeyError (KInt 0))).
  { unfold styled_line. rewrite Z.eqb_refl. lookups. reflexivity. }
  rewrite E. cbn [fst snd after stdout exit_status is_lookup_error].
  repeat split. lia.
Qed.

(** Status 200: when the first element of [contents.quotes] is not an
    object (a bare string, a number, a nested array), the subscript
    [["quote"]] raises [TypeError]; nothing is printed. *)
Theorem first_quote_not_object_crashes
  (env : Env) (res : Response) (d c : gmap string pyval)
  (x : pyval) (rest : list pyval) :
  network env url = inr res ->
  status_code res = 200 ->
  loads (text res) = Some (PDict d) ->
  d !! "contents" = Some (PDict c) ->
  c !! "quotes" = Some (PList (x :: rest)) ->
  is_object x = false ->
  outcome loads render_other env = Raise TypeError
  /\ printed loads render_other env = ""
  /\ exit_status (outcome loads render_other env) <> 0.
Proof.
  intros Hnet Hs Hd Hc Hq Hx. unfold_run Hnet. rewrite Hd, Hs.
  assert (E : styled_line render_other 200 (PDict d) = Raise TypeError).
  { unfold styled_line. rewrite Z.eqb_refl. lookups.
    destruct x; try reflexivity. discriminate. }
  rewrite E. cbn [fst snd after stdout exit_status]. repeat split. lia.
Qed.

(** Either branch: when the field the branch reads first ([contents]
    under status 200, [error] otherwise) is present but is not an
    object, the second subscript raises [TypeError]; nothing is
    printed. *)
Theorem branch_field_not_object_crashes
  (env : Env) (res : Response) (d : gmap string pyval) (v : pyval) :
  network env url = inr res ->
  loads (text res) = Some (PDict d) ->
  d !! branch_field (status_code res) = Some v ->
  is_object v = false ->
  outcome loads render_other env = Raise TypeError
  /\ printed loads render_other env = ""
  /\ exit_status (outcome loads render_other env) <> 0.
Proof.
  intros Hnet Hd Hv Ho. unfold_run Hnet. rewrite Hd.
  assert (E : styled_line render_other (status_code res) (PDict d) = Raise TypeError).
  { unfold styled_line. unfold branch_field in Hv.
    destruct (status_code res =? 200); lookups;
      destruct v; try reflexivity; discriminate. }
  rewrite E. cbn [fst snd after stdout exit_status]. repeat split. lia.
Qed.


(** Any other status: the run ends normally only when the body is an
    object whose [error] is an object with a [message]. *)
Theorem error_line_requires_message (env : Env) (res : Response) (data : pyval) :
  network env url = inr res ->
  status_code res <> 200 ->
  loads (text res) = Some data ->
  outcome loads render_other env = Ok tt ->
  exists message, error_field data = Some message.
Proof.
  intros Hnet Hs Hd. unfold_run Hnet. rewrite Hd.
  apply Z.eqb_neq in Hs. unfold styled_line. rewrite Hs.
  destruct (getitems data message_path) as [m|] eqn:E; [|discriminate].
  intros _. exists m. now apply error_field_path.
Qed.

(** Standard output is written exactly in the runs that end normally:
    never a line followed by a crash, never a silent normal end. *)
Theorem prints_iff_normal_end (env : Env) :
  outcome loads render_other env = Ok tt
  <-> printed loads render_other env <> "".
Proof.
  unfold outcome, printed. rewrite run_eq.
  destruct (network env url) as [f|res]; [split; [discriminate | now intros []]|].
  destruct (loads (text res)) as [data|]; [|split; [discriminate | now intros []]].
  destruct (styled_line render_other (status_code res) data) as [s|];
    [destruct (stdout_encodable env s)|]; cbn [fst snd after stdout].
  - split; [intros _; apply append_newline_nonempty | reflexivity].
  - split; [discriminate | now intros []].
  - split; [discriminate | now intros []].
Qed.

(** The colour follows the status alone: what a normal run prints
    starts with ESC[32m (green) under status 200 and with ESC[31m (red)
    under any other status, and always ends with ESC[0m (reset) and one
    line feed. *)
Theorem colour_follows_status (env : Env) (res : Response) :
  network env url = inr res ->
  outcome loads render_other env = Ok tt ->
  exists s,
    printed loads render_other env
    = (if status_code res =? 200
       then String "027"%char "[32m" else String "027"%char "[31m")
      +:+ s +:+ String "027"%char "[0m" +:+ String "010"%char "".
Proof.
  intros Hnet. unfold_run Hnet.
  destruct (loads (text res)) as [data|]; [|discriminate].
  destruct (styled_line render_other (status_code res) data) as [line|] eqn:E;
    [|discriminate].
  destruct (stdout_encodable env line); [|discriminate].
  intros _. apply styled_line_coloured in E as [s ->].
  exists s. cbn [snd after stdout]. unfold branch_colour.
  rewrite !append_assoc.
  destruct (status_code res =? 200); reflexivity.
Qed.


End Edges.

(** ** The edges on concrete runs *)

Lemma non_object_body_crashes_witness :
  (outcome loads str_only (respond 200 array_body) = Raise TypeError
   /\ printed loads str_only (respond 200 array_body) = ""
   /\ exit_status (outcome loads str_only (respond 200 array_body)) <> 0)
  /\ (outcome loads str_only (respond 503 array_body) = Raise TypeError
      /\ printed loads str_only (respond 503 array_body) = ""
      /\ exit_status (outcome loads str_only (respond 503 array_body)) <> 0).
Proof.
  split.
  - apply (non_object_body_crashes loads str_only (respond 200 array_body)
             (answer 200 array_body) (PList [])).
    + reflexivity.
    + vm_compute; reflexivity.
    + reflexivity.
  - apply (non_object_body_crashes loads str_only (respond 503 array_body)
             (answer 503 array_body) (PList [])).
    + reflexivity.
    + vm_compute; reflexivity.
    + reflexivity.
Defined.

Lemma non_string_quote_crashes_witness :
  outcome loads str_only (respond 200 null_quote_body) = Raise TypeError
  /\ printed loads str_only (respond 200 null_quote_body) = ""
  /\ exit_status (outcome loads str_only (respond 200 null_quote_body)) <> 0.
Proof.
  apply (non_string_quote_crashes loads str_only (respond 200 null_quote_body)
           (answer 200 null_quote_body)
           {[ "contents" := PDict {[ "quotes" := PList [PDict null_quote] ]} ]}
           {[ "quotes" := PList [PDict null_quote] ]}
           null_quote [] PNone (PStr "Oscar Wilde")).
  - reflexivity.
  - reflexivity.
  - vm_compute; reflexivity.
  - vm_compute; reflexivity.
  - vm_compute; reflexivity.
  - vm_compute; reflexivity.
  - vm_compute; reflexivity.
  - reflexivity.
Defined.

Lemma quotes_object_crashes_witness :
  outcome loads str_only (respond 200 quotes_object_body) = Raise (KeyError (KInt 0))
  /\ is_lookup_error (KeyError (KInt 0)) = true
  /\ printed loads str_only (respond 200 quotes_object_body) = ""
  /\ exit_status (outcome loads str_only (respond 200 quotes_object_body)) <> 0.
Proof.
  apply (quotes_object_crashes loads str_only (respond 200 quotes_object_body)
           (answer 200 quotes_object_body)
           {[ "contents" := PDict {[ "quotes" := PDict {[ "0" := PDict first_quote ]} ]} ]}
           {[ "quotes" := PDict {[ "0" := PDict first_quote ]} ]}
           {[ "0" := PDict first_quote ]}).
  - reflexivity.
  - reflexivity.
  - vm_compute; reflexivity.
  - vm_compute; reflexivity.
  - vm_compute; reflexivity.
Defined.

Lemma first_quote_not_object_crashes_witness :
  outcome loads str_only (respond 200 quote_strings_body) = Raise TypeError
  /\ printed loads str_only (respond 200 quote_strings_body) = ""
  /\ exit_status (outcome loads str_only (respond 200 quote_strings_body)) <> 0.
Proof.
  apply (first_quote_not_object_crashes loads str_only (respond 200 quote_strings_body)
           (answer 200 quote_strings_body)
           {[ "contents" := PDict {[ "quotes" := PList [PStr "Be yourself"] ]} ]}
           {[ "quotes" := PList [PStr "Be yourself"] ]}
           (PStr "Be yourself") []).
  - reflexivity.
  - reflexivity.
  - vm_compute; reflexivity.
  - vm_compute; reflexivity.
  - vm_compute; reflexivity.
  - reflexivity.
Defined.

Lemma branch_field_not_object_crashes_witness :
  outcome loads str_only (respond 404 flat_error_body) = Raise TypeError
  /\ printed loads str_only (respond 404 flat_error_body) = ""
  /\ exit_status (outcome loads str_only (respond 404 flat_error_body)) <> 0.
Proof.
  apply (branch_field_not_object_crashes loads str_only (respond 404 flat_error_body)
           (answer 404 flat_error_body)
           {[ "error" := PStr "Not Found" ]} (PStr "Not Found")).
  - reflexivity.
  - vm_compute; reflexivity.
  - vm_compute; reflexivity.
  - reflexivity.
Defined.


Lemma error_line_requires_message_witness :
  exists message, error_field error_data = Some message.
Proof.
  apply (error_line_requires_message loads str_only (respond 500 error_body)
           (answer 500 error_body) error_data).
  - reflexivity.
  - simpl; lia.
  - vm_compute; reflexivity.
  - vm_compute; reflexivity.
Defined.

Lemma colour_follows_status_witness :
  (exists s,
     printed loads str_only (respond 200 success_body)
     = String "027"%char "[32m" +:+ s +:+ String "027"%char "[0m"
       +:+ String "010"%char "")
  /\ (exists s,
        printed loads str_only (respond 500 error_body)
        = String "027"%char "[31m" +:+ s +:+ String "027"%char "[0m"
          +:+ String "010"%char "").
Proof.
  split.
  - apply (colour_follows_status loads str_only (respond 200 success_body)
             (answer 200 success_body)).
    + reflexivity.
    + vm_compute; reflexivity.
  - apply (colour_follows_status loads str_only (respond 500 error_body)
             (answer 500 error_body)).
    + reflexivity.
    + vm_compute; reflexivity.
Defined.

